(** * MSAL.js error taxonomy: a shallow embedding of AuthError.ts

    The development follows the two revisions of the error module found in
    the repository (src/unnamed/part_000, the earlier one, and
    src/unnamed/part_001, the one whose class names lib/msal-apichange's
    index.ts re-exports), together with the export list of index.ts.

    An error object is a record of the properties the constructors assign;
    a constructor is a function that runs its [super] call first and then
    the assignments of its body, in source order.  [Object.setPrototypeOf]
    is an update of the record's [proto] field, and [instanceof] walks the
    prototype chain that the [extends] clauses build. *)

From Stdlib Require Import String Ascii List Bool Arith Lia NArith.
From Stdlib Require Import DecimalString.
Import ListNotations.
Open Scope string_scope.

(** ** Strings as the source uses them *)

(** [a + b] on strings. *)
Notation "a +++ b" := (String.append a b) (at level 60, right associativity).

(** [String.prototype.includes]: some suffix of [m] starts with [s]. *)
Fixpoint includes (s m : string) : bool :=
  if String.prefix s m then true
  else match m with
       | EmptyString => false
       | String _ m' => includes s m'
       end.

(** [String.prototype.indexOf]: position of the first occurrence. *)
Definition indexOf (s m : string) : option nat := String.index 0 s m.

(** What "the message contains [s]" means, independently of [includes]. *)
Definition Contains (s m : string) : Prop :=
  exists pre post, m = pre +++ s +++ post.

(** [s1] occurs in [m] and [s2] occurs after that occurrence. *)
Definition ContainsInOrder (s1 s2 m : string) : Prop :=
  exists pre mid post, m = pre +++ s1 +++ mid +++ s2 +++ post.

(** [numArgs] is an argument count; [+] renders it in decimal (as it does
    every whole number below 10^21). *)
Definition Number_toString (n : N) : string :=
  NilZero.string_of_uint (N.to_uint n).

(** ** What AuthError.ts imports

    [Utils.isEmpty] and the two [Constants] are defined in files that are
    not part of the sources at hand; the error module is parametric in
    them. *)
Record Imports := {
  Utils_isEmpty : string -> bool;
  Constants_cacheLocationLocal : string;
  Constants_cacheLocationSession : string
}.

(** Sequencing of the assignments of a constructor body on [this]. *)
Notation "this |> f" := (f this) (at level 50, left associativity, only parsing).

(** * The later revision (src/unnamed/part_001) *)

Module Part001.

(** The classes of the module, and the built-in [Error] they derive from. *)
Inductive Class :=
| Error
| AuthError
| ClientAuthError
| ConfigurationAuthError
| ServerError
| InteractionRequiredAuthError
| ClaimsRequiredAuthError.

Definition Class_eq_dec (a b : Class) : {a = b} + {a <> b}.
Proof. decide equality. Defined.

Definition allClasses : list Class :=
  [Error; AuthError; ClientAuthError; ConfigurationAuthError; ServerError;
   InteractionRequiredAuthError; ClaimsRequiredAuthError].

(** The identifier each class is declared under. *)
Definition className (c : Class) : string :=
  match c with
  | Error => "Error"
  | AuthError => "AuthError"
  | ClientAuthError => "ClientAuthError"
  | ConfigurationAuthError => "ConfigurationAuthError"
  | ServerError => "ServerError"
  | InteractionRequiredAuthError => "InteractionRequiredAuthError"
  | ClaimsRequiredAuthError => "ClaimsRequiredAuthError"
  end.

(** [class C extends P]: the prototype of [C.prototype] is [P.prototype]. *)
Definition extends (c : Class) : option Class :=
  match c with
  | Error => None
  | AuthError => Some Error
  | ClientAuthError => Some AuthError
  | ConfigurationAuthError => Some ClientAuthError
  | ServerError => Some AuthError
  | InteractionRequiredAuthError => Some ServerError
  | ClaimsRequiredAuthError => Some InteractionRequiredAuthError
  end.

(** "is a more specific case of": the reflexive and transitive closure of
    the [extends] clauses. *)
Inductive Inherits : Class -> Class -> Prop :=
| Inherits_refl c : Inherits c c
| Inherits_step c p a : extends c = Some p -> Inherits p a -> Inherits c a.

(** The prototype chain starting at [c.prototype], followed for at most
    [fuel] links. *)
Fixpoint chainFrom (fuel : nat) (c : Class) : list Class :=
  c :: match fuel with
       | O => []
       | S fuel' =>
           match extends c with
           | None => []
           | Some p => chainFrom fuel' p
           end
       end.

Definition prototypeChain (c : Class) : list Class :=
  chainFrom (List.length allClasses) c.

(** An error object: its [[Prototype]] (as the class whose [prototype]
    object it is) and the properties the constructors and methods assign.
    [None] is [undefined].  The [stack] property holds an engine-defined
    trace and is left out. *)
Record Instance := mkInstance {
  proto : Class;
  name : string;
  message : string;
  tokenRequestType : option string;
  userState : option string;
  interactionType : option string;
  claimsRequired : option string
}.

(** Property assignments [this.p = v] and [Object.setPrototypeOf]. *)
Definition setPrototypeOf (c : Class) (o : Instance) : Instance :=
  mkInstance c (name o) (message o) (tokenRequestType o) (userState o)
             (interactionType o) (claimsRequired o).
Definition set_name (v : string) (o : Instance) : Instance :=
  mkInstance (proto o) v (message o) (tokenRequestType o) (userState o)
             (interactionType o) (claimsRequired o).
Definition set_tokenRequestType (v : string) (o : Instance) : Instance :=
  mkInstance (proto o) (name o) (message o) (Some v) (userState o)
             (interactionType o) (claimsRequired o).
Definition set_userState (v : string) (o : Instance) : Instance :=
  mkInstance (proto o) (name o) (message o) (tokenRequestType o) (Some v)
             (interactionType o) (claimsRequired o).
Definition set_interactionType (v : string) (o : Instance) : Instance :=
  mkInstance (proto o) (name o) (message o) (tokenRequestType o) (userState o)
             (Some v) (claimsRequired o).
Definition set_claimsRequired (v : string) (o : Instance) : Instance :=
  mkInstance (proto o) (name o) (message o) (tokenRequestType o) (userState o)
             (interactionType o) (Some v).

(** [o instanceof C]: [C.prototype] is on the prototype chain of [o]. *)
Definition instanceOf (o : Instance) (c : Class) : bool :=
  existsb (fun p => if Class_eq_dec p c then true else false)
          (prototypeChain (proto o)).

(** A narrowing catch: [if (e instanceof C) { handle(e) }] hands the
    handler the very object that was thrown. *)
Definition catchAs (c : Class) (e : Instance) : option Instance :=
  if instanceOf e c then Some e else None.

(** [new Error(message)] of the host: [name] is read from
    [Error.prototype]. *)
Definition Error_constructor (message : string) : Instance :=
  mkInstance Error "Error" message None None None None.

Module AuthError.
Definition constructor (message tokenRequestType userState : string)
    : Instance :=
    Error_constructor message
      |> set_name "AuthError"
      |> set_tokenRequestType tokenRequestType
      |> set_userState userState
      |> setPrototypeOf AuthError.
End AuthError.

Module ClientAuthError.
Definition constructor (message tokenRequestType userState : string)
    : Instance :=
    AuthError.constructor message tokenRequestType userState
      |> set_name "ClientAuthError"
      |> setPrototypeOf ClientAuthError.

Section Imported.
Variable imports : Imports.

    (** The value of the local [errorMessage] when the [return] is reached. *)
Definition createEndpointResolutionError_errorMessage (errDesc : string)
      : string :=
      let errorMessage :=
        "Error in Could not resolve endpoints. Please check network and try again." in
      if negb (Utils_isEmpty imports errDesc)
      then errorMessage +++ " Details: " +++ errDesc
      else errorMessage.

Definition createEndpointResolutionError (errDesc tokenType userState : string)
      : Instance :=
      let errorMessage := createEndpointResolutionError_errorMessage errDesc in
      constructor errDesc tokenType userState.
End Imported.

Definition createMultipleMatchingTokensInCacheError
    (scope tokenType userState : string) : Instance :=
    constructor ("Cache error for scope " +++ scope +++ ": The cache contains multiple tokens satisfying the requirements. Call AcquireToken again providing more requirements like authority.") tokenType userState.

Definition createMultipleAuthoritiesInCacheError
    (scope tokenType userState : string) : Instance :=
    constructor ("Cache error for scope " +++ scope +++ ": Multiple authorities found in the cache. Pass authority in the API overload.") tokenType userState.

Definition createPopupWindowError (tokenType userState : string) : Instance :=
    constructor "Error opening popup window. This can happen if you are using IE or if popups are blocked in the browser." tokenType userState.

Definition createTokenRenewalTimeoutError (tokenType userState : string)
    : Instance :=
    constructor "Token renewal operation failed due to timeout." tokenType userState.

Definition createInvalidStateError
    (invalidState actualState tokenType userState : string) : Instance :=
    constructor ("Invalid state: " +++ invalidState +++ ", should be state: " +++ actualState) tokenType userState.

Definition createNonceMismatchError
    (invalidNonce actualNonce tokenType userState : string) : Instance :=
    constructor ("Invalid nonce: " +++ invalidNonce +++ ", should be nonce: " +++ actualNonce) tokenType userState.

Definition createLoginInProgressError (tokenType userState : string)
    : Instance :=
    constructor "Login_In_Progress: Error during login call - login is already in progress." tokenType userState.

Definition createAcquireTokenInProgressError (tokenType userState : string)
    : Instance :=
    constructor "AcquireToken_In_Progress: Error during login call - login is already in progress." tokenType userState.

Definition createUserCancelledError (tokenType userState : string)
    : Instance :=
    constructor "User_Cancelled: User cancelled " tokenType userState.
End ClientAuthError.

Module ConfigurationAuthError.
Definition constructor (message tokenType userState : string) : Instance :=
    ClientAuthError.constructor message tokenType userState
      |> set_name "ConfigurationAuthError"
      |> setPrototypeOf ConfigurationAuthError.

Section Imported.
Variable imports : Imports.

Definition createInvalidCacheLocationConfigError
      (givenCacheLocation tokenType userState : string) : Instance :=
      constructor ("Cache Location is not valid. Provided value:" +++ givenCacheLocation +++ ". Possible values are: " +++ Constants_cacheLocationLocal imports +++ ", " +++ Constants_cacheLocationSession imports) tokenType userState.
End Imported.

Definition createNoCallbackGivenError (tokenType userState : string)
    : Instance :=
    constructor "Error in configuration: no callback(s) registered for login/acquireTokenRedirect flows. Plesae call handleRedirectCallbacks() with the appropriate callback signatures. More information is available here: https://github.com/AzureAD/microsoft-authentication-library-for-js/wiki/-basics" tokenType userState.

Definition createCallbackParametersError
    (numArgs : N) (tokenType userState : string) : Instance :=
    constructor ("Error occurred in callback - incorrect number of arguments, expected 2, got " +++ Number_toString numArgs +++ ".") tokenType userState.

Definition createSuccessCallbackParametersError
    (numArgs : N) (tokenType userState : string) : Instance :=
    constructor ("Error occurred in callback for successful token response - incorrect number of arguments, expected 1, got " +++ Number_toString numArgs +++ ".") tokenType userState.

Definition createErrorCallbackParametersError
    (numArgs : N) (tokenType userState : string) : Instance :=
    constructor ("Error occurred in callback for error response - incorrect number of arguments, expected 1, got " +++ Number_toString numArgs +++ ".") tokenType userState.

Definition createEmptyScopesArrayError
    (scopesValue tokenType userState : string) : Instance :=
    constructor ("Scopes cannot be passed as empty array. Given value: " +++ scopesValue) tokenType userState.

Definition createScopesNonArrayError
    (scopesValue tokenType userState : string) : Instance :=
    constructor ("Scopes cannot be passed as non-array. Given value: " +++ scopesValue) tokenType userState.

Definition createClientIdSingleScopeError
    (scopesValue tokenType userState : string) : Instance :=
    constructor ("Client ID can only be provided as a single scope. Given value: " +++ scopesValue) tokenType userState.
End ConfigurationAuthError.

Module ServerError.
Definition constructor (message tokenType userState : string) : Instance :=
    AuthError.constructor message tokenType userState
      |> set_name "ServerError"
      |> setPrototypeOf ServerError.

Definition createServerUnavailableError (tokenType userState : string)
    : Instance :=
    constructor "Server is temporarily unavailable." tokenType userState.

Definition createUnknownServerError (errorDesc tokenType userState : string)
    : Instance :=
    constructor "" tokenType userState.
End ServerError.

Module InteractionRequiredAuthError.
Definition constructor (message tokenType userState : string) : Instance :=
    ServerError.constructor message tokenType userState
      |> set_name "InteractionRequiredAuthError"
      |> setPrototypeOf InteractionRequiredAuthError.

  (** The method body, run on [this]. *)
Definition setInteractionType (interactionType : string) (this : Instance)
    : Instance :=
    this |> set_interactionType interactionType.

Definition createLoginRequiredAuthError (tokenType userState : string)
    : Instance :=
    constructor "login_required: User must login." tokenType userState.

Definition createInteractionRequiredAuthError
    (errorDesc tokenType userState : string) : Instance :=
    constructor ("interaction_required: " +++ errorDesc) tokenType userState.

Definition createConsentRequiredAuthError
    (errorDesc tokenType userState : string) : Instance :=
    constructor ("consent_required: " +++ errorDesc) tokenType userState.
End InteractionRequiredAuthError.

Module ClaimsRequiredAuthError.
Definition constructor (message tokenType userState claimsRequired : string)
    : Instance :=
    InteractionRequiredAuthError.constructor message tokenType userState
      |> set_name "ClaimsRequiredAuthError"
      |> set_claimsRequired claimsRequired
      |> setPrototypeOf ClaimsRequiredAuthError.
End ClaimsRequiredAuthError.

(** ** The factory operations

    A value of [Factory] is one static [create...] method together with
    its scenario-specific detail; [invoke] applies it to the two universal
    arguments. *)
Inductive Factory :=
| op_createEndpointResolutionError (errDesc : string)
| op_createMultipleMatchingTokensInCacheError (scope : string)
| op_createMultipleAuthoritiesInCacheError (scope : string)
| op_createPopupWindowError
| op_createTokenRenewalTimeoutError
| op_createInvalidStateError (invalidState actualState : string)
| op_createNonceMismatchError (invalidNonce actualNonce : string)
| op_createLoginInProgressError
| op_createAcquireTokenInProgressError
| op_createUserCancelledError
| op_createInvalidCacheLocationConfigError (givenCacheLocation : string)
| op_createNoCallbackGivenError
| op_createCallbackParametersError (numArgs : N)
| op_createSuccessCallbackParametersError (numArgs : N)
| op_createErrorCallbackParametersError (numArgs : N)
| op_createEmptyScopesArrayError (scopesValue : string)
| op_createScopesNonArrayError (scopesValue : string)
| op_createClientIdSingleScopeError (scopesValue : string)
| op_createServerUnavailableError
| op_createUnknownServerError (errorDesc : string)
| op_createLoginRequiredAuthError
| op_createInteractionRequiredAuthError (errorDesc : string)
| op_createConsentRequiredAuthError (errorDesc : string).

(** The class a factory is a static method of. *)
Definition declaringClass (f : Factory) : Class :=
  match f with
  | op_createEndpointResolutionError _
  | op_createMultipleMatchingTokensInCacheError _
  | op_createMultipleAuthoritiesInCacheError _
  | op_createPopupWindowError
  | op_createTokenRenewalTimeoutError
  | op_createInvalidStateError _ _
  | op_createNonceMismatchError _ _
  | op_createLoginInProgressError
  | op_createAcquireTokenInProgressError
  | op_createUserCancelledError => ClientAuthError
  | op_createInvalidCacheLocationConfigError _
  | op_createNoCallbackGivenError
  | op_createCallbackParametersError _
  | op_createSuccessCallbackParametersError _
  | op_createErrorCallbackParametersError _
  | op_createEmptyScopesArrayError _
  | op_createScopesNonArrayError _
  | op_createClientIdSingleScopeError _ => ConfigurationAuthError
  | op_createServerUnavailableError
  | op_createUnknownServerError _ => ServerError
  | op_createLoginRequiredAuthError
  | op_createInteractionRequiredAuthError _
  | op_createConsentRequiredAuthError _ => InteractionRequiredAuthError
  end.

Definition invoke (imports : Imports) (f : Factory)
  (tokenType userState : string) : Instance :=
  match f with
  | op_createEndpointResolutionError errDesc =>
      ClientAuthError.createEndpointResolutionError imports errDesc tokenType userState
  | op_createMultipleMatchingTokensInCacheError scope =>
      ClientAuthError.createMultipleMatchingTokensInCacheError scope tokenType userState
  | op_createMultipleAuthoritiesInCacheError scope =>
      ClientAuthError.createMultipleAuthoritiesInCacheError scope tokenType userState
  | op_createPopupWindowError =>
      ClientAuthError.createPopupWindowError tokenType userState
  | op_createTokenRenewalTimeoutError =>
      ClientAuthError.createTokenRenewalTimeoutError tokenType userState
  | op_createInvalidStateError invalidState actualState =>
      ClientAuthError.createInvalidStateError invalidState actualState tokenType userState
  | op_createNonceMismatchError invalidNonce actualNonce =>
      ClientAuthError.createNonceMismatchError invalidNonce actualNonce tokenType userState
  | op_createLoginInProgressError =>
      ClientAuthError.createLoginInProgressError tokenType userState
  | op_createAcquireTokenInProgressError =>
      ClientAuthError.createAcquireTokenInProgressError tokenType userState
  | op_createUserCancelledError =>
      ClientAuthError.createUserCancelledError tokenType userState
  | op_createInvalidCacheLocationConfigError givenCacheLocation =>
      ConfigurationAuthError.createInvalidCacheLocationConfigError imports givenCacheLocation tokenType userState
  | op_createNoCallbackGivenError =>
      ConfigurationAuthError.createNoCallbackGivenError tokenType userState
  | op_createCallbackParametersError numArgs =>
      ConfigurationAuthError.createCallbackParametersError numArgs tokenType userState
  | op_createSuccessCallbackParametersError numArgs =>
      ConfigurationAuthError.createSuccessCallbackParametersError numArgs tokenType userState
  | op_createErrorCallbackParametersError numArgs =>
      ConfigurationAuthError.createErrorCallbackParametersError numArgs tokenType userState
  | op_createEmptyScopesArrayError scopesValue =>
      ConfigurationAuthError.createEmptyScopesArrayError scopesValue tokenType userState
  | op_createScopesNonArrayError scopesValue =>
      ConfigurationAuthError.createScopesNonArrayError scopesValue tokenType userState
  | op_createClientIdSingleScopeError scopesValue =>
      ConfigurationAuthError.createClientIdSingleScopeError scopesValue tokenType userState
  | op_createServerUnavailableError =>
      ServerError.createServerUnavailableError tokenType userState
  | op_createUnknownServerError errorDesc =>
      ServerError.createUnknownServerError errorDesc tokenType userState
  | op_createLoginRequiredAuthError =>
      InteractionRequiredAuthError.createLoginRequiredAuthError tokenType userState
  | op_createInteractionRequiredAuthError errorDesc =>
      InteractionRequiredAuthError.createInteractionRequiredAuthError errorDesc tokenType userState
  | op_createConsentRequiredAuthError errorDesc =>
      InteractionRequiredAuthError.createConsentRequiredAuthError errorDesc tokenType userState
  end.

(** ** Method calls on an existing object

    [setInteractionType] is the only method the module declares.  The call
    [e.setInteractionType(v)] finds it through the prototype chain of [e];
    where [InteractionRequiredAuthError.prototype] is not on the chain the
    property is [undefined] and the call throws ([None]). *)
Definition call_setInteractionType (e : Instance) (interactionType : string)
  : option Instance :=
  if instanceOf e InteractionRequiredAuthError
  then Some (InteractionRequiredAuthError.setInteractionType interactionType e)
  else None.

(** The operations the module offers on an object it has built. *)
Inductive Method :=
| m_setInteractionType (interactionType : string).

Definition callMethod (e : Instance) (m : Method) : option Instance :=
  match m with
  | m_setInteractionType v => call_setInteractionType e v
  end.

(** A sequence of method calls, stopping at the first that throws. *)
Fixpoint callMethods (e : Instance) (ms : list Method) : option Instance :=
  match ms with
  | [] => Some e
  | m :: ms' =>
      match callMethod e m with
      | Some e' => callMethods e' ms'
      | None => None
      end
  end.

(** The argument of the last [setInteractionType] in a sequence of calls. *)
Fixpoint lastInteractionType (ms : list Method) (acc : option string)
  : option string :=
  match ms with
  | [] => acc
  | m_setInteractionType v :: ms' => lastInteractionType ms' (Some v)
  end.

(** Reading [claimsRequired] from an error caught at a coarser level:
    [if (e instanceof ClaimsRequiredAuthError) { ... e.claimsRequired ... }]. *)
Definition narrowClaimsRequired (e : Instance) : option string :=
  match catchAs ClaimsRequiredAuthError e with
  | Some e' => claimsRequired e'
  | None => None
  end.

End Part001.

(** * The earlier revision (src/unnamed/part_000)

    Here no constructor calls [Object.setPrototypeOf].  The statement
    [AuthError.prototype = Object.create(Error.prototype)] that follows the
    root class assigns to the [prototype] of a class, which runs only where
    classes are compiled to constructor functions.  There [super(message)]
    is [Error.call(this, message)]: it returns the object [Error] itself
    creates, and that object is what every constructor of the chain goes
    on to fill in and return.  So the object keeps [Error.prototype],
    whichever class the [new] expression names.  The prototypes of the
    classes are linked as the [extends] clauses say; the object assigned to
    [AuthError.prototype] has [Error.prototype] as its prototype again. *)

Module Part000.

Inductive Class :=
| Error
| AuthError
| ClientAuthError
| ClientProgressAuthError
| ClientConfigurationAuthError
| ServerAuthError
| InteractionRequiredAuthError
| ClaimsRequiredAuthError.

Definition className (c : Class) : string :=
  match c with
  | Error => "Error"
  | AuthError => "AuthError"
  | ClientAuthError => "ClientAuthError"
  | ClientProgressAuthError => "ClientProgressAuthError"
  | ClientConfigurationAuthError => "ClientConfigurationAuthError"
  | ServerAuthError => "ServerAuthError"
  | InteractionRequiredAuthError => "InteractionRequiredAuthError"
  | ClaimsRequiredAuthError => "ClaimsRequiredAuthError"
  end.

Definition extends (c : Class) : option Class :=
  match c with
  | Error => None
  | AuthError => Some Error
  | ClientAuthError => Some AuthError
  | ClientProgressAuthError => Some ClientAuthError
  | ClientConfigurationAuthError => Some ClientAuthError
  | ServerAuthError => Some AuthError
  | InteractionRequiredAuthError => Some AuthError
  | ClaimsRequiredAuthError => Some InteractionRequiredAuthError
  end.

Inductive Inherits : Class -> Class -> Prop :=
| Inherits_refl c : Inherits c c
| Inherits_step c p a : extends c = Some p -> Inherits p a -> Inherits c a.

Definition Class_eq_dec (a b : Class) : {a = b} + {a <> b}.
Proof. decide equality. Defined.

Definition allClasses : list Class :=
  [Error; AuthError; ClientAuthError; ClientProgressAuthError;
   ClientConfigurationAuthError; ServerAuthError;
   InteractionRequiredAuthError; ClaimsRequiredAuthError].

(** The prototype chain starting at [c.prototype], followed for at most
    [fuel] links. *)
Fixpoint chainFrom (fuel : nat) (c : Class) : list Class :=
  c :: match fuel with
       | O => []
       | S fuel' =>
           match extends c with
           | None => []
           | Some p => chainFrom fuel' p
           end
       end.

Definition prototypeChain (c : Class) : list Class :=
  chainFrom (List.length allClasses) c.

(** An error object: its [[Prototype]] (as the class whose [prototype]
    object it is) and the properties the constructors assign. *)
Record Instance := mkInstance {
  proto : Class;
  name : string;
  message : string;
  tokenRequestType : option string;
  userState : option string
}.

Definition set_name (v : string) (o : Instance) : Instance :=
  mkInstance (proto o) v (message o) (tokenRequestType o) (userState o).
Definition set_tokenRequestType (v : string) (o : Instance) : Instance :=
  mkInstance (proto o) (name o) (message o) (Some v) (userState o).
Definition set_userState (v : string) (o : Instance) : Instance :=
  mkInstance (proto o) (name o) (message o) (tokenRequestType o) (Some v).

(** [o instanceof C]: [C.prototype] is on the prototype chain of [o]. *)
Definition instanceOf (o : Instance) (c : Class) : bool :=
  existsb (fun p => if Class_eq_dec p c then true else false)
          (prototypeChain (proto o)).

(** The object [Error] creates for [message]: its prototype is
    [Error.prototype], from which [name] is read. *)
Definition Error_constructor (message : string) : Instance :=
  mkInstance Error "Error" message None None.

Module AuthError.
Definition constructor (message tokenRequestType userState : string)
  : Instance :=
  Error_constructor message
    |> set_name "AuthError"
    |> set_tokenRequestType tokenRequestType
    |> set_userState userState.
End AuthError.

Module ClientAuthError.
Definition constructor (message tokenRequestType userState : string)
  : Instance :=
  AuthError.constructor message tokenRequestType userState
    |> set_name "ClientAuthError".

Section Imported.
Variable imports : Imports.

Definition createEndpointResolutionError_errorMessage (errDesc : string)
  : string :=
  let errorMessage :=
    "Error in Could not resolve endpoints. Please check network and try again." in
  if negb (Utils_isEmpty imports errDesc)
  then errorMessage +++ " Details: " +++ errDesc
  else errorMessage.

Definition createEndpointResolutionError (errDesc tokenType userState : string)
  : Instance :=
  let errorMessage := createEndpointResolutionError_errorMessage errDesc in
  constructor errDesc tokenType userState.
End Imported.

Definition createMultipleMatchingTokensInCacheError
  (scope tokenType userState : string) : Instance :=
  constructor ("Cache error for scope " +++ scope +++ ": The cache contains multiple tokens satisfying the requirements. Call AcquireToken again providing more requirements like authority.") tokenType userState.

Definition createMultipleAuthoritiesInCacheError
  (scope tokenType userState : string) : Instance :=
  constructor ("Cache error for scope " +++ scope +++ ": Multiple authorities found in the cache. Pass authority in the API overload.") tokenType userState.

Definition createPopupWindowError (tokenType userState : string) : Instance :=
  constructor "Error opening popup window. This can happen if you are using IE or if popups are blocked in the browser." tokenType userState.

Definition createTokenRenewalTimeoutError (tokenType userState : string)
  : Instance :=
  constructor "Token renewal operation failed due to timeout." tokenType userState.

Definition createInvalidStateError
  (invalidState actualState tokenType userState : string) : Instance :=
  constructor ("Invalid state: " +++ invalidState +++ ", should be state: " +++ actualState) tokenType userState.

Definition createNonceMismatchError
  (invalidNonce actualNonce tokenType userState : string) : Instance :=
  constructor ("Invalid nonce: " +++ invalidNonce +++ ", should be nonce: " +++ actualNonce) tokenType userState.
End ClientAuthError.

Module ClientProgressAuthError.
Definition constructor (message tokenRequestType userState : string)
  : Instance :=
  ClientAuthError.constructor message tokenRequestType userState
    |> set_name "ClientAsyncAuthError".

Definition createLoginInProgressError (tokenType userState : string)
  : Instance :=
  constructor "Login_In_Progress: Error during login call - login is already in progress." tokenType userState.

Definition createAcquireTokenInProgressError (tokenType userState : string)
  : Instance :=
  constructor "AcquireToken_In_Progress: Error during login call - login is already in progress." tokenType userState.

Definition createUserCancelledError (tokenType userState : string)
  : Instance :=
  constructor "User_Cancelled: User cancelled " tokenType userState.
End ClientProgressAuthError.

Module ClientConfigurationAuthError.
Definition constructor (message tokenType userState : string) : Instance :=
  ClientAuthError.constructor message tokenType userState
    |> set_name "ClientConfigurationAuthError".

Section Imported.
Variable imports : Imports.

Definition createInvalidCacheLocationConfigError
  (givenCacheLocation tokenType userState : string) : Instance :=
  constructor ("Cache Location is not valid. Provided value:" +++ givenCacheLocation +++ ". Possible values are: " +++ Constants_cacheLocationLocal imports +++ ", " +++ Constants_cacheLocationSession imports) tokenType userState.
End Imported.

Definition createNoCallbackGivenError (tokenType userState : string)
  : Instance :=
  constructor "Error in configuration: no callback(s) registered for login/acquireTokenRedirect flows. Plesae call handleRedirectCallbacks() with the appropriate callback signatures. More information is available here: https://github.com/AzureAD/microsoft-authentication-library-for-js/wiki/-basics" tokenType userState.

Definition createSuccessCallbackParametersError
  (numArgs : N) (tokenType userState : string) : Instance :=
  constructor ("Error occurred in callback for successful token response - incorrect number of arguments, expected 1, got " +++ Number_toString numArgs +++ ".") tokenType userState.

Definition createErrorCallbackParametersError
  (numArgs : N) (tokenType userState : string) : Instance :=
  constructor ("Error occurred in callback for error response - incorrect number of arguments, expected 1, got " +++ Number_toString numArgs +++ ".") tokenType userState.

Definition createEmptyScopesArrayError
  (scopesValue tokenType userState : string) : Instance :=
  constructor ("Scopes cannot be passed as empty array. Given value: " +++ scopesValue) tokenType userState.

Definition createScopesNonArrayError
  (scopesValue tokenType userState : string) : Instance :=
  constructor ("Scopes cannot be passed as non-array. Given value: " +++ scopesValue) tokenType userState.

Definition createClientIdSingleScopeError
  (scopesValue tokenType userState : string) : Instance :=
  constructor ("Client ID can only be provided as a single scope. Given value: " +++ scopesValue) tokenType userState.
End ClientConfigurationAuthError.

Module ServerAuthError.
Definition constructor (message tokenType userState : string) : Instance :=
  AuthError.constructor message tokenType userState
    |> set_name "ServerAuthError".

Definition createServerUnavailableError (tokenType userState : string)
  : Instance :=
  constructor "Server is temporarily unavailable." tokenType userState.
End ServerAuthError.

Module InteractionRequiredAuthError.
Definition constructor (message tokenType userState : string) : Instance :=
  AuthError.constructor message tokenType userState
    |> set_name "InteractionRequiredAuthError".

Definition createLoginRequiredAuthError (tokenType userState : string)
  : Instance :=
  constructor "login_required: User must login." tokenType userState.

Definition createInteractionRequiredAuthError
  (errorDesc tokenType userState : string) : Instance :=
  constructor ("interaction_required: " +++ errorDesc) tokenType userState.

Definition createConsentRequiredAuthError
  (errorDesc tokenType userState : string) : Instance :=
  constructor ("consent_required: " +++ errorDesc) tokenType userState.
End InteractionRequiredAuthError.

Module ClaimsRequiredAuthError.
Definition constructor (message tokenType userState : string) : Instance :=
  InteractionRequiredAuthError.constructor message tokenType userState
    |> set_name "ClaimsRequiredAuthError".
End ClaimsRequiredAuthError.

Inductive Factory :=
| op_createEndpointResolutionError (errDesc : string)
| op_createMultipleMatchingTokensInCacheError (scope : string)
| op_createMultipleAuthoritiesInCacheError (scope : string)
| op_createPopupWindowError
| op_createTokenRenewalTimeoutError
| op_createInvalidStateError (invalidState actualState : string)
| op_createNonceMismatchError (invalidNonce actualNonce : string)
| op_createLoginInProgressError
| op_createAcquireTokenInProgressError
| op_createUserCancelledError
| op_createInvalidCacheLocationConfigError (givenCacheLocation : string)
| op_createNoCallbackGivenError
| op_createSuccessCallbackParametersError (numArgs : N)
| op_createErrorCallbackParametersError (numArgs : N)
| op_createEmptyScopesArrayError (scopesValue : string)
| op_createScopesNonArrayError (scopesValue : string)
| op_createClientIdSingleScopeError (scopesValue : string)
| op_createServerUnavailableError
| op_createLoginRequiredAuthError
| op_createInteractionRequiredAuthError (errorDesc : string)
| op_createConsentRequiredAuthError (errorDesc : string).

Definition declaringClass (f : Factory) : Class :=
  match f with
  | op_createEndpointResolutionError _
  | op_createMultipleMatchingTokensInCacheError _
  | op_createMultipleAuthoritiesInCacheError _
  | op_createPopupWindowError
  | op_createTokenRenewalTimeoutError
  | op_createInvalidStateError _ _
  | op_createNonceMismatchError _ _ => ClientAuthError
  | op_createLoginInProgressError
  | op_createAcquireTokenInProgressError
  | op_createUserCancelledError => ClientProgressAuthError
  | op_createInvalidCacheLocationConfigError _
  | op_createNoCallbackGivenError
  | op_createSuccessCallbackParametersError _
  | op_createErrorCallbackParametersError _
  | op_createEmptyScopesArrayError _
  | op_createScopesNonArrayError _
  | op_createClientIdSingleScopeError _ => ClientConfigurationAuthError
  | op_createServerUnavailableError => ServerAuthError
  | op_createLoginRequiredAuthError
  | op_createInteractionRequiredAuthError _
  | op_createConsentRequiredAuthError _ => InteractionRequiredAuthError
  end.

Definition invoke (imports : Imports) (f : Factory)
  (tokenType userState : string) : Instance :=
  match f with
  | op_createEndpointResolutionError errDesc =>
      ClientAuthError.createEndpointResolutionError imports errDesc tokenType userState
  | op_createMultipleMatchingTokensInCacheError scope =>
      ClientAuthError.createMultipleMatchingTokensInCacheError scope tokenType userState
  | op_createMultipleAuthoritiesInCacheError scope =>
      ClientAuthError.createMultipleAuthoritiesInCacheError scope tokenType userState
  | op_createPopupWindowError =>
      ClientAuthError.createPopupWindowError tokenType userState
  | op_createTokenRenewalTimeoutError =>
      ClientAuthError.createTokenRenewalTimeoutError tokenType userState
  | op_createInvalidStateError invalidState actualState =>
      ClientAuthError.createInvalidStateError invalidState actualState tokenType userState
  | op_createNonceMismatchError invalidNonce actualNonce =>
      ClientAuthError.createNonceMismatchError invalidNonce actualNonce tokenType userState
  | op_createLoginInProgressError =>
      ClientProgressAuthError.createLoginInProgressError tokenType userState
  | op_createAcquireTokenInProgressError =>
      ClientProgressAuthError.createAcquireTokenInProgressError tokenType userState
  | op_createUserCancelledError =>
      ClientProgressAuthError.createUserCancelledError tokenType userState
  | op_createInvalidCacheLocationConfigError givenCacheLocation =>
      ClientConfigurationAuthError.createInvalidCacheLocationConfigError imports givenCacheLocation tokenType userState
  | op_createNoCallbackGivenError =>
      ClientConfigurationAuthError.createNoCallbackGivenError tokenType userState
  | op_createSuccessCallbackParametersError numArgs =>
      ClientConfigurationAuthError.createSuccessCallbackParametersError numArgs tokenType userState
  | op_createErrorCallbackParametersError numArgs =>
      ClientConfigurationAuthError.createErrorCallbackParametersError numArgs tokenType userState
  | op_createEmptyScopesArrayError scopesValue =>
      ClientConfigurationAuthError.createEmptyScopesArrayError scopesValue tokenType userState
  | op_createScopesNonArrayError scopesValue =>
      ClientConfigurationAuthError.createScopesNonArrayError scopesValue tokenType userState
  | op_createClientIdSingleScopeError scopesValue =>
      ClientConfigurationAuthError.createClientIdSingleScopeError scopesValue tokenType userState
  | op_createServerUnavailableError =>
      ServerAuthError.createServerUnavailableError tokenType userState
  | op_createLoginRequiredAuthError =>
      InteractionRequiredAuthError.createLoginRequiredAuthError tokenType userState
  | op_createInteractionRequiredAuthError errorDesc =>
      InteractionRequiredAuthError.createInteractionRequiredAuthError errorDesc tokenType userState
  | op_createConsentRequiredAuthError errorDesc =>
      InteractionRequiredAuthError.createConsentRequiredAuthError errorDesc tokenType userState
  end.

End Part000.

(** * The package entry point (src/lib/msal-apichange/src/index.ts) *)

Module Index.

(** One [export { a, b, ... } from "m"] statement. *)
Record ExportFrom := mkExportFrom {
  exported : list string;
  source : string
}.

(** The statements of index.ts, in source order. *)
Definition index_ts : list ExportFrom :=
  [ mkExportFrom ["UserAgentApplication"] "./UserAgentApplication";
    mkExportFrom ["Logger"] "./Logger";
    mkExportFrom ["LogLevel"] "./Logger";
    mkExportFrom ["Account"] "./Account";
    mkExportFrom ["Constants"] "./Constants";
    mkExportFrom ["TokenResponse"] "./RequestInfo";
    mkExportFrom ["Authority"] "./Authority";
    mkExportFrom ["CacheResult"] "./UserAgentApplication";
    mkExportFrom ["TConfiguration"] "./Configuration";
    mkExportFrom ["AuthError"; "ClientAuthError"; "ConfigurationAuthError";
                  "InteractionRequiredAuthError"; "ServerError"] "./AuthError";
    mkExportFrom ["Configuration"] "./Configuration";
    mkExportFrom ["AuthResponse"] "./Response" ].

(** Every name the package exports. *)
Definition publicSurface : list string := flat_map exported index_ts.

(** The names re-exported from one module. *)
Definition reexportedFrom (m : string) : list string :=
  flat_map exported (filter (fun d => String.eqb (source d) m) index_ts).

Definition isExported (n : string) : bool :=
  existsb (String.eqb n) publicSurface.

(** The [export class] declarations of the error module: it declares
    nothing else at top level. *)
Definition AuthError_ts_declared : list Part001.Class :=
  [Part001.AuthError; Part001.ClientAuthError; Part001.ConfigurationAuthError;
   Part001.ServerError; Part001.InteractionRequiredAuthError;
   Part001.ClaimsRequiredAuthError].

Definition AuthError_ts_exports : list string :=
  map Part001.className AuthError_ts_declared.

(** The variant names of the data model plus the root, as the error module
    names them. *)
Definition taxonomyNames : list string :=
  ["AuthError"; "ClientAuthError"; "ConfigurationAuthError"; "ServerError";
   "InteractionRequiredAuthError"; "ClaimsRequiredAuthError"].

End Index.

(** * Objects a caller can hold, and how the two revisions correspond *)

(** The objects the later revision lets a caller obtain: the result of
    [new] on one of its six classes, and whatever a successful method call
    turns such an object into. *)
Inductive Built : Part001.Instance -> Prop :=
| Built_AuthError m t s :
    Built (Part001.AuthError.constructor m t s)
| Built_ClientAuthError m t s :
    Built (Part001.ClientAuthError.constructor m t s)
| Built_ConfigurationAuthError m t s :
    Built (Part001.ConfigurationAuthError.constructor m t s)
| Built_ServerError m t s :
    Built (Part001.ServerError.constructor m t s)
| Built_InteractionRequiredAuthError m t s :
    Built (Part001.InteractionRequiredAuthError.constructor m t s)
| Built_ClaimsRequiredAuthError m t s c :
    Built (Part001.ClaimsRequiredAuthError.constructor m t s c)
| Built_call e m e' :
    Built e -> Part001.callMethod e m = Some e' -> Built e'.


(** Each factory of the earlier revision and the factory of the same name
    in the later one. *)
Definition laterFactory (f : Part000.Factory) : Part001.Factory :=
  match f with
  | Part000.op_createEndpointResolutionError d =>
      Part001.op_createEndpointResolutionError d
  | Part000.op_createMultipleMatchingTokensInCacheError d =>
      Part001.op_createMultipleMatchingTokensInCacheError d
  | Part000.op_createMultipleAuthoritiesInCacheError d =>
      Part001.op_createMultipleAuthoritiesInCacheError d
  | Part000.op_createPopupWindowError => Part001.op_createPopupWindowError
  | Part000.op_createTokenRenewalTimeoutError =>
      Part001.op_createTokenRenewalTimeoutError
  | Part000.op_createInvalidStateError a b =>
      Part001.op_createInvalidStateError a b
  | Part000.op_createNonceMismatchError a b =>
      Part001.op_createNonceMismatchError a b
  | Part000.op_createLoginInProgressError =>
      Part001.op_createLoginInProgressError
  | Part000.op_createAcquireTokenInProgressError =>
      Part001.op_createAcquireTokenInProgressError
  | Part000.op_createUserCancelledError => Part001.op_createUserCancelledError
  | Part000.op_createInvalidCacheLocationConfigError d =>
      Part001.op_createInvalidCacheLocationConfigError d
  | Part000.op_createNoCallbackGivenError =>
      Part001.op_createNoCallbackGivenError
  | Part000.op_createSuccessCallbackParametersError n =>
      Part001.op_createSuccessCallbackParametersError n
  | Part000.op_createErrorCallbackParametersError n =>
      Part001.op_createErrorCallbackParametersError n
  | Part000.op_createEmptyScopesArrayError d =>
      Part001.op_createEmptyScopesArrayError d
  | Part000.op_createScopesNonArrayError d =>
      Part001.op_createScopesNonArrayError d
  | Part000.op_createClientIdSingleScopeError d =>
      Part001.op_createClientIdSingleScopeError d
  | Part000.op_createServerUnavailableError =>
      Part001.op_createServerUnavailableError
  | Part000.op_createLoginRequiredAuthError =>
      Part001.op_createLoginRequiredAuthError
  | Part000.op_createInteractionRequiredAuthError d =>
      Part001.op_createInteractionRequiredAuthError d
  | Part000.op_createConsentRequiredAuthError d =>
      Part001.op_createConsentRequiredAuthError d
  end.

(** The class of the later revision that took over from each class of the
    earlier one. *)
Definition laterClass (c : Part000.Class) : Part001.Class :=
  match c with
  | Part000.Error => Part001.Error
  | Part000.AuthError => Part001.AuthError
  | Part000.ClientAuthError => Part001.ClientAuthError
  | Part000.ClientProgressAuthError => Part001.ClientAuthError
  | Part000.ClientConfigurationAuthError => Part001.ConfigurationAuthError
  | Part000.ServerAuthError => Part001.ServerError
  | Part000.InteractionRequiredAuthError => Part001.InteractionRequiredAuthError
  | Part000.ClaimsRequiredAuthError => Part001.ClaimsRequiredAuthError
  end.

(** * Properties *)

(** ** Substrings *)

Lemma append_assoc (a b c : string) : (a +++ b) +++ c = a +++ b +++ c.
Proof. induction a as [|x a IH]; simpl; [reflexivity | now rewrite IH]. Qed.

Lemma prefix_append (s t : string) : String.prefix s (s +++ t) = true.
Proof.
  induction s as [|c s IH]; simpl.
  - destruct t; reflexivity.
  - destruct (ascii_dec c c) as [_|n]; [exact IH | now elim n].
Qed.

Lemma prefix_split (s m : string) :
  String.prefix s m = true -> exists post, m = s +++ post.
Proof.
  revert m; induction s as [|c s IH]; intros m H.
  - exists m; reflexivity.
  - destruct m as [|d m]; simpl in H; [discriminate|].
    destruct (ascii_dec c d) as [->|_]; [|discriminate].
    destruct (IH m H) as [post ->]. exists post; reflexivity.
Qed.

Lemma includes_unfold (s m : string) :
  includes s m =
  if String.prefix s m then true
  else match m with
       | EmptyString => false
       | String _ m' => includes s m'
       end.
Proof. destruct m; reflexivity. Qed.

Lemma includes_append (pre s post : string) :
  includes s (pre +++ s +++ post) = true.
Proof.
  induction pre as [|c pre IH].
  - change ("" +++ s +++ post) with (s +++ post).
    now rewrite includes_unfold, prefix_append.
  - change (String c pre +++ s +++ post) with (String c (pre +++ s +++ post)).
    rewrite includes_unfold.
    destruct (String.prefix s (String c (pre +++ s +++ post)));
      [reflexivity | exact IH].
Qed.

Lemma includes_Contains (s m : string) :
  includes s m = true <-> Contains s m.
Proof.
  split.
  - induction m as [|c m IH]; rewrite includes_unfold; intros H.
    + destruct (String.prefix s "") eqn:E; [|discriminate].
      destruct (prefix_split _ _ E) as [post ->].
      exists "", post; reflexivity.
    + destruct (String.prefix s (String c m)) eqn:E.
      * destruct (prefix_split _ _ E) as [post ->].
        exists "", post; reflexivity.
      * destruct (IH H) as (pre & post & ->).
        exists (String c pre), post; reflexivity.
  - intros (pre & post & ->). apply includes_append.
Qed.

Lemma ContainsInOrder_Contains (s1 s2 m : string) :
  ContainsInOrder s1 s2 m -> Contains s1 m /\ Contains s2 m.
Proof.
  intros (pre & mid & post & ->); split.
  - exists pre, (mid +++ s2 +++ post); reflexivity.
  - exists (pre +++ s1 +++ mid), post.
    now rewrite !append_assoc.
Qed.

(** ** The class hierarchy of the later revision *)

Lemma P1_Inherits_trans (a b c : Part001.Class) :
  Part001.Inherits a b -> Part001.Inherits b c -> Part001.Inherits a c.
Proof.
  induction 1 as [|x p y E _ IH]; intros H; [exact H|].
  eapply Part001.Inherits_step; eauto.
Qed.

Lemma P1_chainFrom_sound (fuel : nat) (c a : Part001.Class) :
  In a (Part001.chainFrom fuel c) -> Part001.Inherits c a.
Proof.
  revert c; induction fuel as [|n IH]; intros c; simpl.
  - intros [->|[]]; constructor.
  - intros [->|H]; [constructor|].
    destruct (Part001.extends c) as [p|] eqn:E; [|contradiction].
    eapply Part001.Inherits_step; eauto.
Qed.

Lemma P1_prototypeChain_complete (c a : Part001.Class) :
  Part001.Inherits c a -> In a (Part001.prototypeChain c).
Proof.
  induction 1 as [c|c p a E _ IH].
  - destruct c; simpl; auto.
  - destruct c; simpl in E; inversion E; subst p;
      revert IH; unfold Part001.prototypeChain; simpl; tauto.
Qed.

Lemma P1_prototypeChain_Inherits (c a : Part001.Class) :
  In a (Part001.prototypeChain c) <-> Part001.Inherits c a.
Proof.
  split; [apply P1_chainFrom_sound | apply P1_prototypeChain_complete].
Qed.

Lemma P1_instanceOf_Inherits (e : Part001.Instance) (c : Part001.Class) :
  Part001.instanceOf e c = true <-> Part001.Inherits (Part001.proto e) c.
Proof.
  unfold Part001.instanceOf. rewrite existsb_exists, <- P1_prototypeChain_Inherits.
  split.
  - intros (p & Hin & Hp). destruct (Part001.Class_eq_dec p c); congruence.
  - intros H. exists c; split; [exact H|].
    destruct (Part001.Class_eq_dec c c); congruence.
Qed.

(** The chains the [extends] clauses build, written out. *)
Lemma P1_prototypeChain_table :
  Part001.prototypeChain Part001.ClaimsRequiredAuthError =
    [Part001.ClaimsRequiredAuthError; Part001.InteractionRequiredAuthError;
     Part001.ServerError; Part001.AuthError; Part001.Error] /\
  Part001.prototypeChain Part001.InteractionRequiredAuthError =
    [Part001.InteractionRequiredAuthError; Part001.ServerError;
     Part001.AuthError; Part001.Error] /\
  Part001.prototypeChain Part001.ServerError =
    [Part001.ServerError; Part001.AuthError; Part001.Error] /\
  Part001.prototypeChain Part001.ConfigurationAuthError =
    [Part001.ConfigurationAuthError; Part001.ClientAuthError;
     Part001.AuthError; Part001.Error] /\
  Part001.prototypeChain Part001.ClientAuthError =
    [Part001.ClientAuthError; Part001.AuthError; Part001.Error] /\
  Part001.prototypeChain Part001.AuthError =
    [Part001.AuthError; Part001.Error].
Proof. repeat split. Qed.

(** Every constructor leaves the object with the prototype of its own
    class: the last [Object.setPrototypeOf] to run is the most derived. *)
Lemma P1_invoke_proto (imports : Imports) (f : Part001.Factory) (t s : string) :
  Part001.proto (Part001.invoke imports f t s) = Part001.declaringClass f.
Proof. destruct f; reflexivity. Qed.

Lemma P1_invoke_name (imports : Imports) (f : Part001.Factory) (t s : string) :
  Part001.name (Part001.invoke imports f t s) =
  Part001.className (Part001.declaringClass f).
Proof. destruct f; reflexivity. Qed.

(** An object that is an instance of a class is an instance of everything
    that class inherits from, and a catch at that level receives it. *)
Lemma P1_instanceOf_up (e : Part001.Instance) (c a : Part001.Class) :
  Part001.instanceOf e c = true -> Part001.Inherits c a ->
  Part001.instanceOf e a = true /\ Part001.catchAs a e = Some e.
Proof.
  intros Hc Hca.
  assert (Ha : Part001.instanceOf e a = true).
  { apply P1_instanceOf_Inherits. apply P1_instanceOf_Inherits in Hc.
    eapply P1_Inherits_trans; eauto. }
  split; [exact Ha|]. unfold Part001.catchAs. now rewrite Ha.
Qed.

Lemma P1_Inherits_table :
  Part001.Inherits Part001.ClaimsRequiredAuthError Part001.InteractionRequiredAuthError /\
  Part001.Inherits Part001.InteractionRequiredAuthError Part001.ServerError /\
  Part001.Inherits Part001.ServerError Part001.AuthError /\
  Part001.Inherits Part001.ConfigurationAuthError Part001.ClientAuthError /\
  Part001.Inherits Part001.ClientAuthError Part001.AuthError /\
  Part001.Inherits Part001.AuthError Part001.Error.
Proof.
  repeat split; (eapply Part001.Inherits_step; [reflexivity | constructor]).
Qed.

(** ** Method calls *)

Lemma P1_call_setInteractionType_spec (e : Part001.Instance) (v : string) :
  Part001.instanceOf e Part001.InteractionRequiredAuthError = true ->
  Part001.call_setInteractionType e v = Some (Part001.set_interactionType v e).
Proof.
  intros H. unfold Part001.call_setInteractionType. now rewrite H.
Qed.

Lemma P1_callMethods_spec (ms : list Part001.Method) (e : Part001.Instance) :
  Part001.instanceOf e Part001.InteractionRequiredAuthError = true ->
  exists e',
    Part001.callMethods e ms = Some e' /\
    Part001.interactionType e' =
      Part001.lastInteractionType ms (Part001.interactionType e) /\
    Part001.proto e' = Part001.proto e.
Proof.
  revert e; induction ms as [|[v] ms IH]; intros e H.
  - exists e; repeat split.
  - simpl. rewrite (P1_call_setInteractionType_spec e v H).
    destruct (IH (Part001.set_interactionType v e)) as (e' & Hrun & Hty & Hpr).
    + exact H.
    + exists e'; repeat split; assumption.
Qed.

Lemma P1_lastInteractionType_In (ms : list Part001.Method)
  (acc : option string) (v : string) :
  Part001.lastInteractionType ms acc = Some v ->
  acc = Some v \/ In (Part001.m_setInteractionType v) ms.
Proof.
  revert acc; induction ms as [|[w] ms IH]; intros acc H; simpl in *.
  - now left.
  - destruct (IH _ H) as [E|Hin].
    + inversion E; subst; right; now left.
    + right; now right.
Qed.

(** * The claims *)

(** C1.  In the earlier revision the claim fails.  The object a factory
    returns still has [Error.prototype]: it is an instance of [Error], but
    not of the class the factory belongs to, nor of [AuthError].  The
    factories of [ClientProgressAuthError] moreover name their objects
    [ClientAsyncAuthError], which is not the name of their class.  The
    later revision restores the prototype in every constructor and has no
    such name. *)
Theorem earlier_revision_objects_are_plain_errors :
  (forall imports f t s,
     Part000.proto (Part000.invoke imports f t s) = Part000.Error /\
     Part000.instanceOf (Part000.invoke imports f t s) Part000.Error = true /\
     Part000.instanceOf (Part000.invoke imports f t s)
       (Part000.declaringClass f) = false /\
     Part000.instanceOf (Part000.invoke imports f t s)
       Part000.AuthError = false) /\
  Part000.name
    (Part000.ClientProgressAuthError.createLoginInProgressError "idtoken" "s1")
    = "ClientAsyncAuthError" /\
  Part000.className Part000.ClientProgressAuthError
    = "ClientProgressAuthError" /\
  Part000.instanceOf
    (Part000.ClientProgressAuthError.createLoginInProgressError "idtoken" "s1")
    Part000.ClientProgressAuthError = false /\
  Part000.instanceOf
    (Part000.ClientProgressAuthError.createLoginInProgressError "idtoken" "s1")
    Part000.ClientAuthError = false /\
  Part000.instanceOf
    (Part000.InteractionRequiredAuthError.createLoginRequiredAuthError
       "idtoken" "s1")
    Part000.InteractionRequiredAuthError = false.
Proof.
  split; [|repeat split].
  intros imports f t s; destruct f; repeat split.
Qed.

(** X17.  In the later revision every factory returns an object whose [name]
    is that of the class the factory belongs to and which is an instance of
    that class and of every class it inherits from; every instance of
    [InteractionRequiredAuthError] (so every instance of
    [ClaimsRequiredAuthError] too) is an instance of [ServerError] and of
    [AuthError], and a catch at either level receives the same object,
    with all its properties; the [ClaimsRequiredAuthError] constructor,
    which no factory wraps, names its object after its class as well. *)
Theorem factory_variant_and_ancestors :
  (forall imports f t s a,
     Part001.name (Part001.invoke imports f t s) =
       Part001.className (Part001.declaringClass f) /\
     (Part001.Inherits (Part001.declaringClass f) a ->
      Part001.instanceOf (Part001.invoke imports f t s) a = true)) /\
  (forall e,
     Part001.instanceOf e Part001.InteractionRequiredAuthError = true ->
     Part001.instanceOf e Part001.ServerError = true /\
     Part001.instanceOf e Part001.AuthError = true /\
     Part001.catchAs Part001.ServerError e = Some e /\
     Part001.catchAs Part001.AuthError e = Some e) /\
  (forall e,
     Part001.instanceOf e Part001.ClaimsRequiredAuthError = true ->
     Part001.instanceOf e Part001.InteractionRequiredAuthError = true) /\
  (forall m t s c,
     Part001.name (Part001.ClaimsRequiredAuthError.constructor m t s c) =
       "ClaimsRequiredAuthError" /\
     Part001.instanceOf (Part001.ClaimsRequiredAuthError.constructor m t s c)
       Part001.ClaimsRequiredAuthError = true).
Proof.
  destruct P1_Inherits_table as (Hci & His & Hsa & _).
  split; [|split; [|split]].
  - intros imports f t s a. split; [apply P1_invoke_name|].
    intros H. apply P1_instanceOf_Inherits. now rewrite P1_invoke_proto.
  - intros e He.
    destruct (P1_instanceOf_up e _ _ He His) as [Hs Hcs].
    destruct (P1_instanceOf_up e _ _ Hs Hsa) as [Ha Hca].
    auto.
  - intros e He. exact (proj1 (P1_instanceOf_up e _ _ He Hci)).
  - intros m t s c; split; reflexivity.
Qed.

Lemma factory_variant_and_ancestors_witness :
  Part001.instanceOf
    (Part001.InteractionRequiredAuthError.createConsentRequiredAuthError
       "AADSTS65001" "access_token" "s1")
    Part001.InteractionRequiredAuthError = true /\
  Part001.catchAs Part001.ServerError
    (Part001.InteractionRequiredAuthError.createConsentRequiredAuthError
       "AADSTS65001" "access_token" "s1") =
  Some (Part001.InteractionRequiredAuthError.createConsentRequiredAuthError
          "AADSTS65001" "access_token" "s1").
Proof.
  split; [reflexivity|].
  exact (proj1 (proj2 (proj2
    (proj1 (proj2 factory_variant_and_ancestors)
       (Part001.InteractionRequiredAuthError.createConsentRequiredAuthError
          "AADSTS65001" "access_token" "s1")
       eq_refl)))).
Defined.

(** C2.  In both revisions, whatever the factory and its detail, the
    [tokenType] and [userState] arguments come back unchanged as the
    [tokenRequestType] and [userState] properties of the result. *)
Theorem factory_roundtrip_tokenRequestType_userState :
  forall imports t s,
    (forall f,
       Part001.tokenRequestType (Part001.invoke imports f t s) = Some t /\
       Part001.userState (Part001.invoke imports f t s) = Some s) /\
    (forall f,
       Part000.tokenRequestType (Part000.invoke imports f t s) = Some t /\
       Part000.userState (Part000.invoke imports f t s) = Some s).
Proof.
  intros imports t s; split; intros f; destruct f; split; reflexivity.
Qed.

(** C6.  On an instance of [InteractionRequiredAuthError] the call
    [e.setInteractionType(v)] succeeds; afterwards [interactionType] reads
    [v], and [name], [message], [tokenRequestType], [userState],
    [claimsRequired] and the prototype are what they were. *)
Theorem setInteractionType_frame :
  forall e v,
    Part001.instanceOf e Part001.InteractionRequiredAuthError = true ->
    exists e',
      Part001.call_setInteractionType e v = Some e' /\
      Part001.interactionType e' = Some v /\
      Part001.name e' = Part001.name e /\
      Part001.message e' = Part001.message e /\
      Part001.tokenRequestType e' = Part001.tokenRequestType e /\
      Part001.userState e' = Part001.userState e /\
      Part001.claimsRequired e' = Part001.claimsRequired e /\
      Part001.proto e' = Part001.proto e.
Proof.
  intros e v H. exists (Part001.set_interactionType v e).
  split; [now apply P1_call_setInteractionType_spec|].
  repeat split.
Qed.

Lemma setInteractionType_frame_witness :
  Part001.instanceOf
    (Part001.ClaimsRequiredAuthError.constructor
       "claims challenge" "access_token" "s1" "acrs")
    Part001.InteractionRequiredAuthError = true /\
  exists e',
    Part001.call_setInteractionType
      (Part001.ClaimsRequiredAuthError.constructor
         "claims challenge" "access_token" "s1" "acrs") "popup" = Some e' /\
    Part001.interactionType e' = Some "popup" /\
    Part001.claimsRequired e' = Some "acrs".
Proof.
  split; [reflexivity|].
  destruct (setInteractionType_frame
              (Part001.ClaimsRequiredAuthError.constructor
                 "claims challenge" "access_token" "s1" "acrs")
              "popup" eq_refl)
    as (e' & Hcall & Hty & _ & _ & _ & _ & Hcl & _).
  exists e'. split; [exact Hcall|]. split; [exact Hty|].
  rewrite Hcl. reflexivity.
Defined.

(** C7.  A [ClaimsRequiredAuthError] built with payload [c] has
    [claimsRequired] equal to [c]; a handler that caught it as an
    [AuthError] and narrows it with [instanceof ClaimsRequiredAuthError]
    reads the same [c]. *)
Theorem claimsRequired_roundtrip :
  forall m t s c,
    Part001.claimsRequired
      (Part001.ClaimsRequiredAuthError.constructor m t s c) = Some c /\
    Part001.catchAs Part001.AuthError
      (Part001.ClaimsRequiredAuthError.constructor m t s c) =
      Some (Part001.ClaimsRequiredAuthError.constructor m t s c) /\
    match Part001.catchAs Part001.AuthError
            (Part001.ClaimsRequiredAuthError.constructor m t s c) with
    | Some e => Part001.narrowClaimsRequired e
    | None => None
    end = Some c.
Proof. intros m t s c; repeat split. Qed.

(** C10.  The object a factory of [InteractionRequiredAuthError] returns
    has no [interactionType]; after any sequence of method calls on it the
    property holds the argument of the last [setInteractionType] of the
    sequence, so it has a value only if such a call was made. *)
Theorem interactionType_unset_until_set :
  forall imports f t s ms,
    Part001.declaringClass f = Part001.InteractionRequiredAuthError ->
    Part001.interactionType (Part001.invoke imports f t s) = None /\
    exists e',
      Part001.callMethods (Part001.invoke imports f t s) ms = Some e' /\
      Part001.interactionType e' = Part001.lastInteractionType ms None /\
      (forall v, Part001.interactionType e' = Some v ->
                 In (Part001.m_setInteractionType v) ms).
Proof.
  intros imports f t s ms Hf.
  assert (H0 : Part001.interactionType (Part001.invoke imports f t s) = None)
    by (destruct f; reflexivity).
  split; [exact H0|].
  destruct (P1_callMethods_spec ms (Part001.invoke imports f t s))
    as (e' & Hrun & Hty & _).
  - apply P1_instanceOf_Inherits. rewrite P1_invoke_proto, Hf. constructor.
  - rewrite H0 in Hty. exists e'. split; [exact Hrun|]. split; [exact Hty|].
    intros v Hv. rewrite Hty in Hv.
    destruct (P1_lastInteractionType_In _ _ _ Hv) as [E|Hin];
      [discriminate | exact Hin].
Qed.

Lemma interactionType_unset_until_set_witness :
  Part001.declaringClass Part001.op_createLoginRequiredAuthError =
    Part001.InteractionRequiredAuthError /\
  Part001.interactionType
    (Part001.InteractionRequiredAuthError.createLoginRequiredAuthError
       "idtoken" "state-123") = None.
Proof.
  split; [reflexivity|].
  exact (proj1 (interactionType_unset_until_set
                  (Build_Imports (fun _ => false) "" "")
                  Part001.op_createLoginRequiredAuthError
                  "idtoken" "state-123"
                  [Part001.m_setInteractionType "popup"] eq_refl)).
Defined.

(** C3.  [createEndpointResolutionError] builds the template text in its
    local [errorMessage] and then passes [errDesc], not [errorMessage], to
    the constructor: in both revisions the message is the raw description.
    For the description [timeout] it is [timeout], which holds neither the
    fixed text nor the [Details:] marker. *)
Theorem createEndpointResolutionError_message_is_errDesc :
  forall imports errDesc t s,
    Part001.message
      (Part001.ClientAuthError.createEndpointResolutionError imports errDesc t s)
      = errDesc /\
    Part000.message
      (Part000.ClientAuthError.createEndpointResolutionError imports errDesc t s)
      = errDesc /\
    includes "Could not resolve endpoints"
      (Part001.message
         (Part001.ClientAuthError.createEndpointResolutionError
            imports "timeout" "idtoken" "s1")) = false /\
    includes " Details: "
      (Part001.message
         (Part001.ClientAuthError.createEndpointResolutionError
            imports "timeout" "idtoken" "s1")) = false.
Proof. intros; repeat split. Qed.

(** C4.  [createUnknownServerError] drops its [errorDesc] argument and
    constructs the error with the empty string as its message. *)
Theorem createUnknownServerError_message_is_empty :
  forall errorDesc t s,
    Part001.message
      (Part001.ServerError.createUnknownServerError errorDesc t s) = "" /\
    String.length
      (Part001.message
         (Part001.ServerError.createUnknownServerError
            "invalid_grant" "idtoken" "s1")) = 0 /\
    includes "invalid_grant"
      (Part001.message
         (Part001.ServerError.createUnknownServerError
            "invalid_grant" "idtoken" "s1")) = false.
Proof. intros; repeat split. Qed.

(** C5, as stated, fails: [ClaimsRequiredAuthError] is one of the variant
    names, and index.ts does not export it. *)
Lemma public_surface_lacks_ClaimsRequiredAuthError :
  ~ (forall n, In n Index.taxonomyNames -> Index.isExported n = true).
Proof.
  intros H.
  specialize (H "ClaimsRequiredAuthError").
  assert (Hin : In "ClaimsRequiredAuthError" Index.taxonomyNames)
    by (simpl; tauto).
  apply H in Hin. vm_compute in Hin. discriminate.
Qed.

(** C5, amended.  From the error module index.ts re-exports exactly
    [AuthError], [ClientAuthError], [ConfigurationAuthError],
    [InteractionRequiredAuthError] and [ServerError]: each is a class the
    error module exports and a variant name of the data model, nothing
    else of that module is exposed, and of the variant names only
    [ClaimsRequiredAuthError] is missing from the public surface. *)
Theorem public_surface_of_error_module :
  Index.reexportedFrom "./AuthError" =
    ["AuthError"; "ClientAuthError"; "ConfigurationAuthError";
     "InteractionRequiredAuthError"; "ServerError"] /\
  Index.AuthError_ts_exports = Index.taxonomyNames /\
  forallb (fun n => existsb (String.eqb n) Index.AuthError_ts_exports)
          (Index.reexportedFrom "./AuthError") = true /\
  filter Index.isExported Index.taxonomyNames =
    ["AuthError"; "ClientAuthError"; "ConfigurationAuthError"; "ServerError";
     "InteractionRequiredAuthError"] /\
  filter (fun n => negb (Index.isExported n)) Index.taxonomyNames =
    ["ClaimsRequiredAuthError"].
Proof. repeat split. Qed.

(** The template of the cache-location message holds the given value and
    both constants, whatever they are. *)
Lemma cacheLocation_template_includes (g l r : string) :
  includes g ("Cache Location is not valid. Provided value:" +++ g
    +++ ". Possible values are: " +++ l +++ ", " +++ r) = true /\
  includes l ("Cache Location is not valid. Provided value:" +++ g
    +++ ". Possible values are: " +++ l +++ ", " +++ r) = true /\
  includes r ("Cache Location is not valid. Provided value:" +++ g
    +++ ". Possible values are: " +++ l +++ ", " +++ r) = true.
Proof.
  split; [apply includes_append|]. split.
  - rewrite <- (append_assoc "Cache Location is not valid. Provided value:"
                  g (". Possible values are: " +++ l +++ ", " +++ r)).
    rewrite <- (append_assoc _ ". Possible values are: " (l +++ ", " +++ r)).
    apply includes_append.
  - apply includes_Contains.
    exists ("Cache Location is not valid. Provided value:" +++ g
              +++ ". Possible values are: " +++ l +++ ", "), "".
    rewrite !append_assoc.
    replace (r +++ "") with r; [reflexivity|].
    clear; induction r as [|c r IH]; simpl; [reflexivity | now rewrite <- IH].
Qed.

(** C8.  [createInvalidCacheLocationConfigError("foo", "idtoken", "s1")] in
    the earlier revision: the message holds [foo] and the two
    cache-location constants and the object is named
    [ClientConfigurationAuthError], but it still has [Error.prototype]: it
    is an instance neither of [ClientConfigurationAuthError] nor of
    [ClientAuthError]. *)
Theorem createInvalidCacheLocationConfigError_earlier_revision :
  forall imports,
    Part000.proto
      (Part000.ClientConfigurationAuthError.createInvalidCacheLocationConfigError
         imports "foo" "idtoken" "s1") = Part000.Error /\
    Part000.instanceOf
      (Part000.ClientConfigurationAuthError.createInvalidCacheLocationConfigError
         imports "foo" "idtoken" "s1")
      Part000.ClientConfigurationAuthError = false /\
    Part000.instanceOf
      (Part000.ClientConfigurationAuthError.createInvalidCacheLocationConfigError
         imports "foo" "idtoken" "s1") Part000.ClientAuthError = false /\
    Part000.name
      (Part000.ClientConfigurationAuthError.createInvalidCacheLocationConfigError
         imports "foo" "idtoken" "s1") = "ClientConfigurationAuthError" /\
    includes "foo"
      (Part000.message
         (Part000.ClientConfigurationAuthError.createInvalidCacheLocationConfigError
            imports "foo" "idtoken" "s1")) = true /\
    includes (Constants_cacheLocationLocal imports)
      (Part000.message
         (Part000.ClientConfigurationAuthError.createInvalidCacheLocationConfigError
            imports "foo" "idtoken" "s1")) = true /\
    includes (Constants_cacheLocationSession imports)
      (Part000.message
         (Part000.ClientConfigurationAuthError.createInvalidCacheLocationConfigError
            imports "foo" "idtoken" "s1")) = true.
Proof.
  intros imports.
  destruct (cacheLocation_template_includes "foo"
              (Constants_cacheLocationLocal imports)
              (Constants_cacheLocationSession imports)) as (Hg & Hl & Hr).
  split; [reflexivity|]. split; [reflexivity|]. split; [reflexivity|].
  split; [reflexivity|]. split; [exact Hg|]. split; [exact Hl | exact Hr].
Qed.

(** X18.  [createInvalidCacheLocationConfigError("foo", "idtoken", "s1")] in
    the later revision: the result is an instance of
    [ConfigurationAuthError] and of [ClientAuthError], and its message
    holds [foo] and, whatever their values, the two cache-location
    constants. *)
Theorem createInvalidCacheLocationConfigError_later_revision :
  forall imports,
    Part001.instanceOf
      (Part001.ConfigurationAuthError.createInvalidCacheLocationConfigError
         imports "foo" "idtoken" "s1") Part001.ConfigurationAuthError = true /\
    Part001.instanceOf
      (Part001.ConfigurationAuthError.createInvalidCacheLocationConfigError
         imports "foo" "idtoken" "s1") Part001.ClientAuthError = true /\
    includes "foo"
      (Part001.message
         (Part001.ConfigurationAuthError.createInvalidCacheLocationConfigError
            imports "foo" "idtoken" "s1")) = true /\
    includes (Constants_cacheLocationLocal imports)
      (Part001.message
         (Part001.ConfigurationAuthError.createInvalidCacheLocationConfigError
            imports "foo" "idtoken" "s1")) = true /\
    includes (Constants_cacheLocationSession imports)
      (Part001.message
         (Part001.ConfigurationAuthError.createInvalidCacheLocationConfigError
            imports "foo" "idtoken" "s1")) = true.
Proof.
  intros imports.
  destruct (cacheLocation_template_includes "foo"
              (Constants_cacheLocationLocal imports)
              (Constants_cacheLocationSession imports)) as (Hg & Hl & Hr).
  split; [reflexivity|]. split; [reflexivity|].
  split; [exact Hg|]. split; [exact Hl | exact Hr].
Qed.

(** C9.  [createNonceMismatchError("n1", "n2", "idtoken", "s1")]: in both
    revisions the message is [Invalid nonce: n1, should be nonce: n2]; the
    given nonce first occurs at position 15 and the expected one at 36. *)
Theorem createNonceMismatchError_scenario :
  (Part001.message
     (Part001.ClientAuthError.createNonceMismatchError "n1" "n2" "idtoken" "s1")
     = "Invalid nonce: n1, should be nonce: n2" /\
   Part000.message
     (Part000.ClientAuthError.createNonceMismatchError "n1" "n2" "idtoken" "s1")
     = "Invalid nonce: n1, should be nonce: n2") /\
  ContainsInOrder "n1" "n2"
    (Part001.message
       (Part001.ClientAuthError.createNonceMismatchError "n1" "n2" "idtoken" "s1")) /\
  indexOf "n1"
    (Part001.message
       (Part001.ClientAuthError.createNonceMismatchError "n1" "n2" "idtoken" "s1"))
    = Some 15 /\
  indexOf "n2"
    (Part001.message
       (Part001.ClientAuthError.createNonceMismatchError "n1" "n2" "idtoken" "s1"))
    = Some 36.
Proof.
  split; [split; reflexivity|].
  split; [|split; reflexivity].
  exists "Invalid nonce: ", ", should be nonce: ", "". reflexivity.
Qed.

(** The order of the two nonces does not depend on their values. *)
Lemma createNonceMismatchError_order (invalidNonce actualNonce t s : string) :
  ContainsInOrder invalidNonce actualNonce
    (Part001.message
       (Part001.ClientAuthError.createNonceMismatchError
          invalidNonce actualNonce t s)) /\
  ContainsInOrder invalidNonce actualNonce
    (Part000.message
       (Part000.ClientAuthError.createNonceMismatchError
          invalidNonce actualNonce t s)).
Proof.
  assert (E : actualNonce = actualNonce +++ "").
  { induction actualNonce as [|c r IH]; simpl; [reflexivity | now rewrite <- IH]. }
  split; exists "Invalid nonce: ", ", should be nonce: ", "";
    simpl; now rewrite <- E.
Qed.

(** * Remarks on the earlier revision

    Besides leaving its objects with [Error.prototype], the earlier
    revision differs from the later one in two places of the hierarchy:
    [InteractionRequiredAuthError] extends [AuthError] directly, and
    [ClientProgressAuthError] names its objects [ClientAsyncAuthError]. *)

Lemma P0_InteractionRequired_chain (a : Part000.Class) :
  Part000.Inherits Part000.InteractionRequiredAuthError a ->
  a = Part000.InteractionRequiredAuthError \/ a = Part000.AuthError \/
  a = Part000.Error.
Proof.
  intros H. inversion H as [|c p b E H1]; subst; [now left|].
  simpl in E; inversion E; subst p.
  inversion H1 as [|c p b E' H2]; subst; [right; now left|].
  simpl in E'; inversion E'; subst p.
  inversion H2 as [|c p b E'' H3]; subst; [right; now right|].
  discriminate E''.
Qed.

Lemma P0_InteractionRequired_not_ServerAuthError :
  ~ Part000.Inherits Part000.InteractionRequiredAuthError
      Part000.ServerAuthError.
Proof.
  intros H. destruct (P0_InteractionRequired_chain _ H) as [E|[E|E]];
    discriminate E.
Qed.

Lemma P0_ClientProgressAuthError_name (t s : string) :
  Part000.name (Part000.ClientProgressAuthError.createLoginInProgressError t s)
    = "ClientAsyncAuthError" /\
  Part000.className Part000.ClientProgressAuthError = "ClientProgressAuthError".
Proof. split; reflexivity. Qed.

(** * Further properties of the hierarchy *)


Lemma P1_className_inj (a b : Part001.Class) :
  Part001.className a = Part001.className b -> a = b.
Proof. destruct a, b; simpl; intros H; first [reflexivity | discriminate H]. Qed.

(** X1.  The client side and the server side of the hierarchy are
    disjoint: an object that is an instance of [ClientAuthError] is not an
    instance of [ServerError], whatever its prototype. *)
Theorem client_and_server_branches_disjoint :
  forall e,
    Part001.instanceOf e Part001.ClientAuthError = true ->
    Part001.instanceOf e Part001.ServerError = false /\
    Part001.instanceOf e Part001.InteractionRequiredAuthError = false /\
    Part001.instanceOf e Part001.ClaimsRequiredAuthError = false.
Proof.
  intros [p n m t s i c]; unfold Part001.instanceOf; simpl.
  destruct p; vm_compute; intros H; first [discriminate H | auto].
Qed.

Lemma client_and_server_branches_disjoint_witness :
  Part001.instanceOf
    (Part001.ConfigurationAuthError.createNoCallbackGivenError "idtoken" "s1")
    Part001.ClientAuthError = true /\
  Part001.instanceOf
    (Part001.ConfigurationAuthError.createNoCallbackGivenError "idtoken" "s1")
    Part001.ServerError = false.
Proof.
  split; [reflexivity|].
  exact (proj1 (client_and_server_branches_disjoint
                  (Part001.ConfigurationAuthError.createNoCallbackGivenError
                     "idtoken" "s1") eq_refl)).
Defined.

(** X2.  The [extends] clauses form a tree rooted at [Error]: every class
    inherits from [Error], two classes that inherit from each other are
    the same class, and no prototype chain visits a class twice. *)
Theorem inheritance_is_a_rooted_order :
  (forall c, Part001.Inherits c Part001.Error) /\
  (forall a b, Part001.Inherits a b -> Part001.Inherits b a -> a = b) /\
  (forall c, NoDup (Part001.prototypeChain c)).
Proof.
  split; [|split].
  - intros c. apply P1_prototypeChain_Inherits. destruct c; simpl; tauto.
  - intros a b Hab Hba.
    apply P1_prototypeChain_Inherits in Hab, Hba.
    destruct a, b; simpl in Hab, Hba;
      first [reflexivity | exfalso; intuition discriminate].
  - intros c. destruct c; unfold Part001.prototypeChain; simpl;
      repeat (constructor; [simpl; intuition discriminate|]); constructor.
Qed.

Lemma inheritance_is_a_rooted_order_witness :
  Part001.Inherits Part001.ServerError Part001.ServerError /\
  Part001.ServerError = Part001.ServerError.
Proof.
  split; [constructor|].
  exact (proj1 (proj2 inheritance_is_a_rooted_order)
           Part001.ServerError Part001.ServerError
           (Part001.Inherits_refl _) (Part001.Inherits_refl _)).
Defined.

(** X3.  For the result of any factory, dispatching on [name] and testing
    with [instanceof] agree: the name is that of class [c] exactly when
    the prototype is that of [c], and then the object is an instance of
    precisely the classes [c] inherits from. *)
Theorem name_dispatch_agrees_with_instanceof :
  forall imports f t s c,
    (Part001.name (Part001.invoke imports f t s) = Part001.className c <->
     Part001.proto (Part001.invoke imports f t s) = c) /\
    (Part001.name (Part001.invoke imports f t s) = Part001.className c ->
     forall a,
       Part001.instanceOf (Part001.invoke imports f t s) a = true <->
       Part001.Inherits c a).
Proof.
  intros imports f t s c.
  assert (E : Part001.name (Part001.invoke imports f t s) = Part001.className c
              <-> Part001.proto (Part001.invoke imports f t s) = c).
  { rewrite P1_invoke_name, P1_invoke_proto. split.
    - apply P1_className_inj.
    - now intros ->. }
  split; [exact E|].
  intros Hn a. apply E in Hn. rewrite <- Hn. apply P1_instanceOf_Inherits.
Qed.

Lemma name_dispatch_agrees_with_instanceof_witness :
  Part001.name
    (Part001.ServerError.createServerUnavailableError "idtoken" "s1") =
    Part001.className Part001.ServerError /\
  Part001.proto
    (Part001.ServerError.createServerUnavailableError "idtoken" "s1") =
    Part001.ServerError.
Proof.
  split; [reflexivity|].
  exact (proj1 (proj1 (name_dispatch_agrees_with_instanceof
                         (Build_Imports (fun _ => false) "" "")
                         Part001.op_createServerUnavailableError
                         "idtoken" "s1" Part001.ServerError)) eq_refl).
Defined.

(** * Invariants of the objects a caller can hold *)

Lemma P1_invoke_Built (imports : Imports) (f : Part001.Factory) (t s : string) :
  Built (Part001.invoke imports f t s).
Proof. destruct f; simpl; constructor. Qed.

(** X4.  Every object obtained from a constructor, a factory or a
    successful method call is named after the class whose prototype it
    has, is an [AuthError], carries a [tokenRequestType] and a
    [userState], has a [claimsRequired] exactly when it is a
    [ClaimsRequiredAuthError], and has an [interactionType] only if it is
    an [InteractionRequiredAuthError]. *)
Theorem built_objects_invariant :
  forall e,
    Built e ->
    Part001.name e = Part001.className (Part001.proto e) /\
    Part001.instanceOf e Part001.AuthError = true /\
    Part001.tokenRequestType e <> None /\
    Part001.userState e <> None /\
    (Part001.claimsRequired e <> None <->
     Part001.instanceOf e Part001.ClaimsRequiredAuthError = true) /\
    (Part001.interactionType e <> None ->
     Part001.instanceOf e Part001.InteractionRequiredAuthError = true).
Proof.
  assert (Hnew : forall e k,
    Part001.name e = Part001.className (Part001.proto e) ->
    Part001.instanceOf e Part001.AuthError = true ->
    Part001.tokenRequestType e <> None ->
    Part001.userState e <> None ->
    Part001.interactionType e = None ->
    Part001.claimsRequired e = k ->
    (k <> None <-> Part001.instanceOf e Part001.ClaimsRequiredAuthError = true) ->
    Part001.name e = Part001.className (Part001.proto e) /\
    Part001.instanceOf e Part001.AuthError = true /\
    Part001.tokenRequestType e <> None /\
    Part001.userState e <> None /\
    (Part001.claimsRequired e <> None <->
     Part001.instanceOf e Part001.ClaimsRequiredAuthError = true) /\
    (Part001.interactionType e <> None ->
     Part001.instanceOf e Part001.InteractionRequiredAuthError = true)).
  { intros e k Hn Ha Ht Hs Hi Hk Hc. rewrite Hk, Hi.
    repeat split; try assumption; try apply Hc.
    intros H; now elim H. }
  induction 1 as [m t s|m t s|m t s|m t s|m t s|m t s c|e [v] e' _ IH Hcall].
  1-5: apply (Hnew _ None); try reflexivity; try discriminate;
       split; [intros H; now elim H | vm_compute; discriminate].
  - apply (Hnew _ (Some c)); try reflexivity; try discriminate.
    split; [reflexivity | discriminate].
  - simpl in Hcall. unfold Part001.call_setInteractionType in Hcall.
    destruct (Part001.instanceOf e Part001.InteractionRequiredAuthError) eqn:Hir;
      [|discriminate].
    inversion Hcall; subst e'; clear Hcall.
    destruct IH as (Hn & Ha & Ht & Hs & Hc & _).
    unfold Part001.InteractionRequiredAuthError.setInteractionType,
      Part001.set_interactionType, Part001.instanceOf in *; simpl in *.
    split; [exact Hn|]. split; [exact Ha|]. split; [exact Ht|].
    split; [exact Hs|]. split; [exact Hc|]. intros _; exact Hir.
Qed.

Lemma built_objects_invariant_witness :
  Built (Part001.ClaimsRequiredAuthError.constructor
           "claims challenge" "access_token" "s1" "acrs") /\
  Part001.name (Part001.ClaimsRequiredAuthError.constructor
                  "claims challenge" "access_token" "s1" "acrs") =
  "ClaimsRequiredAuthError".
Proof.
  split; [constructor|].
  exact (proj1 (built_objects_invariant
                  (Part001.ClaimsRequiredAuthError.constructor
                     "claims challenge" "access_token" "s1" "acrs")
                  (Built_ClaimsRequiredAuthError
                     "claims challenge" "access_token" "s1" "acrs"))).
Defined.

(** * Method calls: where they fail and how they compose *)

(** X5.  [setInteractionType] exists only below
    [InteractionRequiredAuthError]: on the result of a factory of any other
    class the call throws, and on the result of a factory of that class it
    succeeds. *)
Theorem setInteractionType_only_on_interaction_required :
  forall imports f t s v,
    (Part001.declaringClass f <> Part001.InteractionRequiredAuthError ->
     Part001.call_setInteractionType (Part001.invoke imports f t s) v = None) /\
    (Part001.declaringClass f = Part001.InteractionRequiredAuthError ->
     Part001.call_setInteractionType (Part001.invoke imports f t s) v <> None).
Proof.
  intros imports f t s v; split; intros H.
  - destruct f; simpl in H; first [now elim H | reflexivity].
  - destruct f; simpl in H; first [discriminate H | simpl; discriminate].
Qed.

Lemma setInteractionType_only_on_interaction_required_witness :
  Part001.declaringClass Part001.op_createServerUnavailableError <>
    Part001.InteractionRequiredAuthError /\
  Part001.call_setInteractionType
    (Part001.ServerError.createServerUnavailableError "idtoken" "s1") "popup"
    = None.
Proof.
  assert (H : Part001.declaringClass Part001.op_createServerUnavailableError <>
              Part001.InteractionRequiredAuthError) by (simpl; discriminate).
  split; [exact H|].
  exact (proj1 (setInteractionType_only_on_interaction_required
                  (Build_Imports (fun _ => false) "" "")
                  Part001.op_createServerUnavailableError
                  "idtoken" "s1" "popup") H).
Defined.

(** X6.  On an instance of [InteractionRequiredAuthError] no sequence of
    method calls throws, and the sequence changes nothing but
    [interactionType], which ends up holding the argument of the last call
    (or its old value when the sequence is empty). *)
Theorem method_sequences_frame :
  forall e ms,
    Part001.instanceOf e Part001.InteractionRequiredAuthError = true ->
    exists e',
      Part001.callMethods e ms = Some e' /\
      Part001.interactionType e' =
        Part001.lastInteractionType ms (Part001.interactionType e) /\
      Part001.proto e' = Part001.proto e /\
      Part001.name e' = Part001.name e /\
      Part001.message e' = Part001.message e /\
      Part001.tokenRequestType e' = Part001.tokenRequestType e /\
      Part001.userState e' = Part001.userState e /\
      Part001.claimsRequired e' = Part001.claimsRequired e.
Proof.
  intros e ms; revert e; induction ms as [|[v] ms IH]; intros e H.
  - exists e; repeat split.
  - simpl. rewrite (P1_call_setInteractionType_spec e v H).
    destruct (IH (Part001.set_interactionType v e) H)
      as (e' & Hrun & Hty & Hp & Hn & Hm & Ht & Hs & Hc).
    exists e'. repeat split; assumption.
Qed.

Lemma method_sequences_frame_witness :
  Part001.instanceOf
    (Part001.InteractionRequiredAuthError.createLoginRequiredAuthError
       "idtoken" "state-123") Part001.InteractionRequiredAuthError = true /\
  exists e',
    Part001.callMethods
      (Part001.InteractionRequiredAuthError.createLoginRequiredAuthError
         "idtoken" "state-123")
      [Part001.m_setInteractionType "popup";
       Part001.m_setInteractionType "redirect"] = Some e' /\
    Part001.interactionType e' = Some "redirect".
Proof.
  split; [reflexivity|].
  destruct (method_sequences_frame
              (Part001.InteractionRequiredAuthError.createLoginRequiredAuthError
                 "idtoken" "state-123")
              [Part001.m_setInteractionType "popup";
               Part001.m_setInteractionType "redirect"] eq_refl)
    as (e' & Hrun & Hty & _).
  exists e'. split; [exact Hrun | exact Hty].
Defined.

(** X7.  Running two sequences of method calls one after the other is
    running their concatenation, and of two [setInteractionType] calls in
    a row only the second leaves a trace: the object is the one the second
    call alone would have produced. *)
Theorem method_calls_compose :
  (forall e ms1 ms2,
     Part001.callMethods e (ms1 ++ ms2) =
     match Part001.callMethods e ms1 with
     | Some e1 => Part001.callMethods e1 ms2
     | None => None
     end) /\
  (forall e v w,
     Part001.callMethods e
       [Part001.m_setInteractionType v; Part001.m_setInteractionType w] =
     Part001.callMethods e [Part001.m_setInteractionType w]).
Proof.
  split.
  - intros e ms1; revert e; induction ms1 as [|m ms1 IH]; intros e ms2.
    + reflexivity.
    + simpl. destruct (Part001.callMethod e m) as [e1|]; [apply IH | reflexivity].
  - intros e v w.
    destruct (Part001.instanceOf e Part001.InteractionRequiredAuthError) eqn:H.
    + assert (H' : Part001.instanceOf (Part001.set_interactionType v e)
                     Part001.InteractionRequiredAuthError = true) by exact H.
      simpl.
      rewrite (P1_call_setInteractionType_spec e v H).
      rewrite (P1_call_setInteractionType_spec _ w H').
      rewrite (P1_call_setInteractionType_spec e w H).
      reflexivity.
    + simpl. unfold Part001.call_setInteractionType. rewrite H. reflexivity.
Qed.

(** * What the factories never produce *)

(** X8.  No factory returns a [ClaimsRequiredAuthError]: the result is
    never an instance of that class, has no [claimsRequired], and a
    handler narrowing to it reads nothing. *)
Theorem no_factory_builds_ClaimsRequiredAuthError :
  forall imports f t s,
    Part001.instanceOf (Part001.invoke imports f t s)
      Part001.ClaimsRequiredAuthError = false /\
    Part001.claimsRequired (Part001.invoke imports f t s) = None /\
    Part001.narrowClaimsRequired (Part001.invoke imports f t s) = None.
Proof. intros imports f t s; destruct f; repeat split. Qed.

(** X9.  Every object a factory returns belongs to a class the package
    exports: its [name] is among the names index.ts re-exports from the
    error module. *)
Theorem factory_classes_are_exported :
  forall imports f t s,
    Index.isExported (Part001.name (Part001.invoke imports f t s)) = true /\
    In (Part001.name (Part001.invoke imports f t s))
       (Index.reexportedFrom "./AuthError").
Proof.
  intros imports f t s; rewrite P1_invoke_name.
  destruct f; simpl; split; first [reflexivity | tauto].
Qed.

(** X10.  The caller's [tokenType] and [userState] reach only the two
    properties made for them: in both revisions the [name] and the
    [message] of a factory's result, and in the later one its prototype,
    do not depend on them. *)
Theorem message_independent_of_universal_fields :
  forall imports t s t' s',
    (forall f,
       Part001.message (Part001.invoke imports f t s) =
         Part001.message (Part001.invoke imports f t' s') /\
       Part001.name (Part001.invoke imports f t s) =
         Part001.name (Part001.invoke imports f t' s') /\
       Part001.proto (Part001.invoke imports f t s) =
         Part001.proto (Part001.invoke imports f t' s')) /\
    (forall f,
       Part000.message (Part000.invoke imports f t s) =
         Part000.message (Part000.invoke imports f t' s') /\
       Part000.name (Part000.invoke imports f t s) =
         Part000.name (Part000.invoke imports f t' s')).
Proof. intros; split; intros f; destruct f; repeat split. Qed.

(** * What the messages hold *)




(** Unfolds a factory call down to the string handed to the constructor,
    leaving the concatenations as the source writes them. *)
Ltac expose_message :=
  lazy beta iota zeta delta
    [Part001.invoke Part001.message
     Part001.ClientAuthError.createEndpointResolutionError
     Part001.ClientAuthError.createMultipleMatchingTokensInCacheError
     Part001.ClientAuthError.createMultipleAuthoritiesInCacheError
     Part001.ClientAuthError.createInvalidStateError
     Part001.ClientAuthError.createNonceMismatchError
     Part001.ConfigurationAuthError.createInvalidCacheLocationConfigError
     Part001.ConfigurationAuthError.createCallbackParametersError
     Part001.ConfigurationAuthError.createSuccessCallbackParametersError
     Part001.ConfigurationAuthError.createErrorCallbackParametersError
     Part001.ConfigurationAuthError.createEmptyScopesArrayError
     Part001.ConfigurationAuthError.createScopesNonArrayError
     Part001.ConfigurationAuthError.createClientIdSingleScopeError
     Part001.InteractionRequiredAuthError.createInteractionRequiredAuthError
     Part001.InteractionRequiredAuthError.createConsentRequiredAuthError
     Part001.AuthError.constructor Part001.ClientAuthError.constructor
     Part001.ConfigurationAuthError.constructor Part001.ServerError.constructor
     Part001.InteractionRequiredAuthError.constructor
     Part001.Error_constructor Part001.set_name Part001.set_tokenRequestType
     Part001.set_userState Part001.setPrototypeOf].



(** X12.  A factory of the later revision returns an empty message in
    exactly two cases: [createUnknownServerError], whatever its argument,
    and [createEndpointResolutionError] with an empty description.  In the
    earlier revision only the second case exists. *)
Theorem empty_message_cases :
  forall imports t s,
    (forall f,
       Part001.message (Part001.invoke imports f t s) = "" <->
       (exists errorDesc, f = Part001.op_createUnknownServerError errorDesc) \/
       f = Part001.op_createEndpointResolutionError "") /\
    (forall f,
       Part000.message (Part000.invoke imports f t s) = "" <->
       f = Part000.op_createEndpointResolutionError "").
Proof.
  intros imports t s; split; intros f; split.
  - destruct f; simpl; intros H; try discriminate H.
    + right; now rewrite H.
    + left; eauto.
  - intros [[d ->]| ->]; reflexivity.
  - destruct f; simpl; intros H; try discriminate H. now rewrite H.
  - intros ->; reflexivity.
Qed.

Lemma empty_message_cases_witness :
  Part001.message
    (Part001.ClientAuthError.createEndpointResolutionError
       (Build_Imports (fun _ => false) "" "") "" "idtoken" "s1") = "" /\
  ((exists errorDesc,
      Part001.op_createEndpointResolutionError "" =
      Part001.op_createUnknownServerError errorDesc) \/
   Part001.op_createEndpointResolutionError "" =
   Part001.op_createEndpointResolutionError "").
Proof.
  split; [reflexivity|].
  exact (proj1 (proj1 (empty_message_cases
                         (Build_Imports (fun _ => false) "" "")
                         "idtoken" "s1")
                  (Part001.op_createEndpointResolutionError "")) eq_refl).
Defined.

(** X13.  For the three factories of [InteractionRequiredAuthError] the
    message tells which factory was called and with which description:
    two calls with equal messages are the same call. *)
Theorem interaction_required_message_determines_call :
  forall imports f g t s t' s',
    Part001.declaringClass f = Part001.InteractionRequiredAuthError ->
    Part001.declaringClass g = Part001.InteractionRequiredAuthError ->
    Part001.message (Part001.invoke imports f t s) =
      Part001.message (Part001.invoke imports g t' s') ->
    f = g.
Proof.
  intros imports f g t s t' s' Hf Hg H.
  destruct f; simpl in Hf; try discriminate Hf;
    destruct g; simpl in Hg; try discriminate Hg;
    simpl in H; try discriminate H;
    first [reflexivity | inversion H; reflexivity].
Qed.

Lemma interaction_required_message_determines_call_witness :
  Part001.declaringClass
    (Part001.op_createConsentRequiredAuthError "AADSTS65001") =
    Part001.InteractionRequiredAuthError /\
  Part001.op_createConsentRequiredAuthError "AADSTS65001" =
  Part001.op_createConsentRequiredAuthError "AADSTS65001".
Proof.
  split; [reflexivity|].
  exact (interaction_required_message_determines_call
           (Build_Imports (fun _ => false) "" "")
           (Part001.op_createConsentRequiredAuthError "AADSTS65001")
           (Part001.op_createConsentRequiredAuthError "AADSTS65001")
           "idtoken" "s1" "access_token" "s2" eq_refl eq_refl eq_refl).
Defined.

(** X14.  The state and nonce messages do not tell where the first value
    ends: moving the separator text from the first argument to the second
    gives the same message, so the pair cannot be read back from it. *)
Theorem mismatch_messages_are_ambiguous :
  forall a b c t s,
    Part001.message
      (Part001.ClientAuthError.createInvalidStateError
         (a +++ ", should be state: " +++ b) c t s) =
    Part001.message
      (Part001.ClientAuthError.createInvalidStateError
         a (b +++ ", should be state: " +++ c) t s) /\
    Part001.message
      (Part001.ClientAuthError.createNonceMismatchError
         (a +++ ", should be nonce: " +++ b) c t s) =
    Part001.message
      (Part001.ClientAuthError.createNonceMismatchError
         a (b +++ ", should be nonce: " +++ c) t s).
Proof.
  intros a b c t s; expose_message.
  split.
  - rewrite (append_assoc a (", should be state: " +++ b)).
    rewrite (append_assoc ", should be state: " b). reflexivity.
  - rewrite (append_assoc a (", should be nonce: " +++ b)).
    rewrite (append_assoc ", should be nonce: " b). reflexivity.
Qed.

(** * The two revisions side by side *)

(** X15.  Every factory of the earlier revision survives in the later one
    under the same name and gives the same [message], [tokenRequestType]
    and [userState]; the class it belongs to is the one that took over
    from its old class, and the result is an instance of it. *)
Theorem later_revision_keeps_factories :
  forall imports f t s,
    Part001.message (Part001.invoke imports (laterFactory f) t s) =
      Part000.message (Part000.invoke imports f t s) /\
    Part001.tokenRequestType (Part001.invoke imports (laterFactory f) t s) =
      Part000.tokenRequestType (Part000.invoke imports f t s) /\
    Part001.userState (Part001.invoke imports (laterFactory f) t s) =
      Part000.userState (Part000.invoke imports f t s) /\
    Part001.declaringClass (laterFactory f) =
      laterClass (Part000.declaringClass f) /\
    Part001.instanceOf (Part001.invoke imports (laterFactory f) t s)
      (laterClass (Part000.declaringClass f)) = true.
Proof. intros imports f t s; destruct f; repeat split. Qed.

(** X16.  In the earlier revision a factory's result is named after the
    factory's class, except for the three factories of
    [ClientProgressAuthError], whose results are named
    [ClientAsyncAuthError], a name no class of the module has. *)
Theorem earlier_revision_names :
  (forall imports f t s,
     Part000.name (Part000.invoke imports f t s) =
     match Part000.declaringClass f with
     | Part000.ClientProgressAuthError => "ClientAsyncAuthError"
     | c => Part000.className c
     end) /\
  (forall c, Part000.className c <> "ClientAsyncAuthError").
Proof.
  split.
  - intros imports f t s; destruct f; reflexivity.
  - intros c; destruct c; discriminate.
Qed.
